(** * workers-rag-example: the /query and /notes handlers of src/index.ts

    A shallow embedding of the two request handlers of the worker
    (a retrieval-augmented generation pipeline over Workers AI and a
    Xata vector store), in both revisions of [src/index.ts] that the
    repository carries:

    - revision 1 uses a module-level Xata client, maps every search hit
      into the context and answers [POST /notes] with [{ text, inserted }];
    - revision 2 builds the client per request, filters the hits with
      [record.xata.score ?? 0 > SIMILARITY_CUTOFF] and answers
      [POST /notes] with [{ inserted }].

    JavaScript numbers are IEEE 754 binary64 values ([spec_float]);
    the external collaborators (the AI binding and the Notes table) are
    deterministic oracles, and every call to one of them is recorded,
    together with what it returned, in a trace.  [console.log] output and
    the HTML routes are not modelled. *)

From Stdlib Require Import List String Ascii ZArith Bool Lia.
From Stdlib Require Import SpecFloat.
Import ListNotations.
Local Open Scope string_scope.
Local Open Scope list_scope.

Set Warnings "-register-all".

(** ** JavaScript values *)

Module Js.

(** A JavaScript [number]. *)
Definition number : Type := spec_float.

(** The binary64 value [m * 2^e], rounded to nearest-even. *)
Definition num (m e : Z) : number := binary_normalize 53 1024 m e false.

Definition zero : number := S754_zero false.

(** [x > y] and [x <= y]; both are [false] as soon as one side is NaN. *)
Definition gt (x y : number) : bool := SFltb y x.
Definition le (x y : number) : bool := SFleb x y.

(** ToBoolean on a number: [+0], [-0] and [NaN] are falsy. *)
Definition number_truthy (x : number) : bool :=
  match x with
  | S754_zero _ | S754_nan => false
  | S754_infinity _ | S754_finite _ _ _ => true
  end.

(** The values that travel through the handlers: what [c.req.json()]
    parses, what the store hands back, and what a filter callback
    returns.  An object is the list of its own properties in insertion
    order, each key occurring once. *)
Inductive value : Type :=
| JUndefined
| JNull
| JBool (b : bool)
| JNum (x : number)
| JStr (s : string)
| JArr (items : list value)
| JObj (props : list (string * value)).

(** ToBoolean. *)
Definition truthy (v : value) : bool :=
  match v with
  | JUndefined | JNull => false
  | JBool b => b
  | JNum x => number_truthy x
  | JStr s => negb (s =? EmptyString)
  | JArr _ | JObj _ => true
  end.

(** Own-property lookup in an object literal. *)
Fixpoint lookup (k : string) (props : list (string * value)) : option value :=
  match props with
  | [] => None
  | (k', v) :: rest => if k =? k' then Some v else lookup k rest
  end.

(** [a || b] on strings that may be [undefined]. *)
Definition or_else (a : option string) (b : string) : string :=
  match a with
  | Some s => if s =? EmptyString then b else s
  | None => b
  end.

(** [a ?? b]: [b] only when [a] is [null] or [undefined]. *)
Definition coalesce {A : Type} (a : option A) (b : A) : A :=
  match a with
  | Some x => x
  | None => b
  end.

(** The line feed of ['\n']. *)
Definition nl : string := String (ascii_of_nat 10) EmptyString.

(** [Array.prototype.join]. *)
Definition join (sep : string) (xs : list string) : string :=
  String.concat sep xs.

End Js.

Import Js.

(** ** Data exchanged with the collaborators *)

(** An embedding: one [number[]]. *)
Definition vector : Type := list number.

(** Output of the embedding model ([@cf/baai/bge-base-en-v1.5]):
    [{ data: number[][] }]; [data] is [None] when the property is absent. *)
Record embedding_output : Type := { data : option (list vector) }.

(** Modelled from the spec: the generated [./xata] client module is not part
    of the sources.  A search hit is a Note record carrying its [text]
    (a string) and, under [xata.score], the similarity score of the search,
    which the client types as optional. *)
Record note_record : Type := { text : string; xata_score : option number }.

(** What [vectorSearch] resolves to: [{ records }]. *)
Record search_results : Type := { records : list note_record }.

(** The options object of [vectorSearch]. *)
Record search_options : Type := { similarityFunction : string; size : nat }.

Inductive role : Type := system | user.

(** A [RoleScopedChatInput]. *)
Record chat_message : Type := { msg_role : role; content : string }.

(** What the text-generation model resolves to: a [ReadableStream], an
    object whose [response] property may be missing, [null], or a value
    that is not an object at all. *)
Inductive ai_result : Type :=
| ResStream
| ResObject (response : option string)
| ResNull
| ResOther.

Definition instanceof_ReadableStream (res : ai_result) : bool :=
  match res with
  | ResStream => true
  | _ => false
  end.

(** [typeof res === 'object']: streams, plain objects and [null]. *)
Definition typeof_object (res : ai_result) : bool :=
  match res with
  | ResStream | ResObject _ | ResNull => true
  | ResOther => false
  end.

(** ** Failures, calls and the handler monad *)

Inductive exn : Type :=
| HTTPException (status : nat) (message : string)
| TypeError (message : string)
| Rejected (reason : string).

Inductive outcome (A : Type) : Type :=
| Return (a : A)
| Throw (e : exn).
Arguments Return {A} a.
Arguments Throw {A} e.

(** One awaited call to a collaborator, with its arguments and outcome. *)
Inductive event : Type :=
| AiRunEmbedding (model : string) (texts : list value)
    (out : outcome embedding_output)
| NotesVectorSearch (column : string) (query : option vector)
    (opts : search_options) (out : outcome (option search_results))
| AiRunChat (model : string) (messages : list chat_message) (stream : bool)
    (out : outcome ai_result)
| NotesCreate (note_text : value) (embedding : vector)
    (out : outcome value).

(** The bindings a request runs against: [c.env.AI] and the Notes table. *)
Record collaborators : Type := {
  AI_run_embedding : string -> list value -> outcome embedding_output;
  AI_run_chat : string -> list chat_message -> bool -> outcome ai_result;
  Notes_vectorSearch :
    string -> option vector -> search_options ->
    outcome (option search_results);
  Notes_create : value -> vector -> outcome value
}.

(** A handler computation: it extends the trace of calls made so far and
    either returns or throws. *)
Definition M (A : Type) : Type := list event -> outcome A * list event.

Definition ret {A : Type} (a : A) : M A := fun tr => (Return a, tr).

Definition throw {A : Type} (e : exn) : M A := fun tr => (Throw e, tr).

Definition bind {A B : Type} (m : M A) (k : A -> M B) : M B :=
  fun tr =>
    match m tr with
    | (Return a, tr') => k a tr'
    | (Throw e, tr') => (Throw e, tr')
    end.

Notation "x <- m ;; k" := (bind m (fun x => k))
  (at level 61, m at next level, right associativity).

(** [await f(args)]: log the call, then return its value or rethrow. *)
Definition await {A : Type} (out : outcome A) (ev : event) : M A :=
  fun tr => (out, tr ++ [ev]).

(** Running a handler on a fresh request. *)
Definition run {A : Type} (m : M A) : outcome A * list event := m [].
Definition result {A : Type} (m : M A) : outcome A := fst (run m).
Definition trace {A : Type} (m : M A) : list event := snd (run m).

(** ** What both revisions share *)

(** The body of a reply: [c.text(...)] or [c.json(...)]. *)
Inductive response : Type :=
| c_text (body : string)
| c_json (body : value).

(** The right operand of [c.req.query('text') || ...]. *)
Definition DEFAULT_QUESTION : string := "What is the square root of 9?".

(** The model name of both embedding calls. *)
Definition EMBEDDING_MODEL : string := "@cf/baai/bge-base-en-v1.5".

(** The [model] constant of the query handler. *)
Definition CHAT_MODEL : string := "@hf/thebloke/mistral-7b-instruct-v0.1-awq".

Definition systemPrompt : string :=
  ("You are a helpful assistant. When answering the question or responding, "
   ++ "use the context provided, if it is provided and relevant.")%string.

(** [xs.length] used as a condition. *)
Definition has_length {A : Type} (xs : list A) : bool :=
  negb (Nat.eqb (List.length xs) 0).

(** The template of [contextMessage]: the line [Context:] and then one
    line [- note] per note, joined by line feeds; the empty string when
    there are no notes. *)
Definition contextMessage (notes : list string) : string :=
  if has_length notes
  then ("Context:" ++ nl
        ++ join nl (map (fun note => "- " ++ note) notes))%string
  else EmptyString.

(** The [messages] array literal, for a given instruction prompt. *)
Definition messages (instruction : string) (notes : list string)
    (question : string) : list chat_message :=
  (if has_length notes
   then [{| msg_role := system; content := contextMessage notes |}]
   else [])
  ++ [{| msg_role := system; content := instruction |};
      {| msg_role := user; content := question |}].
Arguments messages : simpl never.

(** [await c.env.AI.run('@cf/baai/bge-base-en-v1.5', { text: texts })] *)
Definition run_embedding (env : collaborators) (texts : list value)
    : M embedding_output :=
  let out := AI_run_embedding env EMBEDDING_MODEL texts in
  await out (AiRunEmbedding EMBEDDING_MODEL texts out).

(** [data[0]]: a TypeError when [data] is undefined, [undefined] when the
    array is empty. *)
Definition first_row (d : option (list vector)) : M (option vector) :=
  match d with
  | None =>
      throw (TypeError "Cannot read properties of undefined (reading '0')")
  | Some rows => ret (nth_error rows 0)
  end.

Definition SEARCH_OPTIONS : search_options :=
  {| similarityFunction := "cosineSimilarity"; size := 2 |}.

(** [await db.Notes.vectorSearch('embedding', vectors, { ... size: 2 })] *)
Definition vectorSearch (env : collaborators) (vectors : option vector)
    : M (option search_results) :=
  let out := Notes_vectorSearch env "embedding" vectors SEARCH_OPTIONS in
  await out (NotesVectorSearch "embedding" vectors SEARCH_OPTIONS out).

(** [await c.env.AI.run(model, { messages, stream: false })] *)
Definition run_chat (env : collaborators) (msgs : list chat_message)
    : M ai_result :=
  let out := AI_run_chat env CHAT_MODEL msgs false in
  await out (AiRunChat CHAT_MODEL msgs false out).

(** [res.response]; reading a property of [null] throws. *)
Definition get_response (res : ai_result) : M (option string) :=
  match res with
  | ResObject r => ret r
  | ResNull =>
      throw (TypeError "Cannot read properties of null (reading 'response')")
  | ResStream | ResOther => ret None
  end.

(** The closing [if]/[else] of the query handler. *)
Definition reply (res : ai_result) : M response :=
  if negb (instanceof_ReadableStream res) && typeof_object res
  then
    r <- get_response res ;;
    let textResponse := coalesce r "No response available" in
    ret (c_text textResponse)
  else ret (c_text "Unable to process the AI response.").

(** [const { text } = await c.req.json()]: destructuring [null] or
    [undefined] throws; a value without that property gives [undefined]. *)
Definition get_text (body : value) : M value :=
  match body with
  | JUndefined | JNull =>
      throw (TypeError "Cannot destructure property 'text'")
  | JObj props => ret (coalesce (lookup "text" props) JUndefined)
  | JBool _ | JNum _ | JStr _ | JArr _ => ret JUndefined
  end.

(** [await db.Notes.create({ text, embedding: values })] *)
Definition create (env : collaborators) (t : value) (values : vector)
    : M value :=
  let out := Notes_create env t values in
  await out (NotesCreate t values out).

(** [await c.req.json()]: the parsed body, or the parser's rejection. *)
Definition req_json (parsed : outcome value) : M value :=
  fun tr => (parsed, tr).

(** ** Revision 1 *)

Module V1.

(** Declared by the handler, and not read by it. *)
Definition SIMILARITY_CUTOFF : number := num 3 (-2).

(** [let notes = []] and then
    [if (results) notes = results.records.map((record) => record.text)]. *)
Definition notes_of (results : option search_results) : list string :=
  match results with
  | Some r => map text (records r)
  | None => []
  end.

(** [app.get('/query', ...)]; [text_param] is [c.req.query('text')]. *)
Definition GET_query (env : collaborators) (text_param : option string)
    : M response :=
  let question := or_else text_param DEFAULT_QUESTION in
  embeddings <- run_embedding env [JStr question] ;;
  vectors <- first_row (data embeddings) ;;
  results <- vectorSearch env vectors ;;
  let notes := notes_of results in
  let msgs := messages systemPrompt notes question in
  res <- run_chat env msgs ;;
  reply res.

(** [app.post('/notes', ...)]; [parsed] is what [c.req.json()] settles to. *)
Definition POST_notes (env : collaborators) (parsed : outcome value)
    : M response :=
  body <- req_json parsed ;;
  t <- get_text body ;;
  if negb (truthy t) then throw (HTTPException 400 "Missing text") else
  out <- run_embedding env [t] ;;
  values <- first_row (data out) ;;
  match values with
  | None => throw (HTTPException 500 "Failed to create vector embedding")
  | Some values =>
      inserted <- create env t values ;;
      if negb (truthy inserted)
      then throw (HTTPException 500 "Failed to create note")
      else ret (c_json (JObj [("text", t); ("inserted", inserted)]))
  end.

End V1.

(** ** Revision 2 *)

Module V2.

Definition SIMILARITY_CUTOFF : number := num 3 (-1).

(** The filter callback
    [(record) => record.xata.score ?? 0 > SIMILARITY_CUTOFF].
    A relational operator binds tighter than [??], so the callback
    evaluates [record.xata.score ?? (0 > SIMILARITY_CUTOFF)]: the score
    itself when there is one, the boolean [0 > SIMILARITY_CUTOFF]
    otherwise. *)
Definition keep (cutoff : number) (record : note_record) : value :=
  coalesce (option_map JNum (xata_score record)) (JBool (gt zero cutoff)).

(** [results.records.length
      ? results.records.filter(keep).map((record) => record.text) : []];
    [filter] retains the records on which the callback is truthy. *)
Definition notes_of (cutoff : number) (recs : list note_record)
    : list string :=
  if has_length recs
  then map text (filter (fun record => truthy (keep cutoff record)) recs)
  else [].

(** [results.records], a TypeError when [results] is undefined. *)
Definition get_records (results : option search_results)
    : M (list note_record) :=
  match results with
  | Some r => ret (records r)
  | None =>
      throw
        (TypeError "Cannot read properties of undefined (reading 'records')")
  end.

(** [app.get('/query', ...)]; [text_param] is [c.req.query('text')]. *)
Definition GET_query (env : collaborators) (text_param : option string)
    : M response :=
  let question := or_else text_param DEFAULT_QUESTION in
  embeddings <- run_embedding env [JStr question] ;;
  vectors <- first_row (data embeddings) ;;
  results <- vectorSearch env vectors ;;
  recs <- get_records results ;;
  let notes := notes_of SIMILARITY_CUTOFF recs in
  let msgs := messages systemPrompt notes question in
  res <- run_chat env msgs ;;
  reply res.

(** [app.post('/notes', ...)]; [parsed] is what [c.req.json()] settles to. *)
Definition POST_notes (env : collaborators) (parsed : outcome value)
    : M response :=
  body <- req_json parsed ;;
  t <- get_text body ;;
  if negb (truthy t) then throw (HTTPException 400 "Missing text") else
  out <- run_embedding env [t] ;;
  values <- first_row (data out) ;;
  match values with
  | None => throw (HTTPException 500 "Failed to create vector embedding")
  | Some values =>
      inserted <- create env t values ;;
      if negb (truthy inserted)
      then throw (HTTPException 500 "Failed to create note")
      else ret (c_json (JObj [("inserted", inserted)]))
  end.

End V2.

(** ** The assembler as the specification words it *)

(** [score > cutoff], for a hit that carries a score. *)
Definition above (cutoff : number) (record : note_record) : bool :=
  match xata_score record with
  | Some s => gt s cutoff
  | None => false
  end.

(** Keep the hits strictly above the cutoff, in order, then at most
    [maxNotes] of them from the front. *)
Definition assemble_spec (recs : list note_record) (cutoff : number)
    (maxNotes : nat) : list string :=
  firstn maxNotes (map text (filter (above cutoff) recs)).

(** ** Both revisions behind one name *)

Inductive revision : Type := Rev1 | Rev2.

Definition GET_query (rev : revision)
    : collaborators -> option string -> M response :=
  match rev with
  | Rev1 => V1.GET_query
  | Rev2 => V2.GET_query
  end.

Definition POST_notes (rev : revision)
    : collaborators -> outcome value -> M response :=
  match rev with
  | Rev1 => V1.POST_notes
  | Rev2 => V2.POST_notes
  end.

(** An embedding call that did not produce a first vector: it threw, or
    resolved without [data], or with an empty [data]. *)
Definition embedding_failed (out : outcome embedding_output) : Prop :=
  match out with
  | Throw _ => True
  | Return o =>
      match data o with
      | None | Some [] => True
      | Some (_ :: _) => False
      end
  end.

(** ** Sample collaborators *)

Module Sample.

(** Collaborators that answer every call the same way. *)
Definition fixed (e : outcome embedding_output)
    (s : outcome (option search_results)) (c : outcome ai_result)
    (n : outcome value) : collaborators :=
  {| AI_run_embedding := fun _ _ => e;
     AI_run_chat := fun _ _ _ => c;
     Notes_vectorSearch := fun _ _ _ => s;
     Notes_create := fun _ _ => n |}.

Definition vec : vector := [num 1 (-1); num (-3) (-2)].

Definition embedded : outcome embedding_output :=
  Return {| data := Some [vec] |}.

Definition no_data : outcome embedding_output :=
  Return {| data := Some [] |}.

Definition paris : string := "Paris is the capital of France.".

(** A hit scored 1.0, below the cutoff 1.5 of revision 2. *)
Definition weak_hit : note_record :=
  {| text := paris; xata_score := Some (num 1 0) |}.

(** A hit that came back without a score. *)
Definition unscored_hit : note_record :=
  {| text := "Rome is in Italy."; xata_score := None |}.

Definition hits (recs : list note_record) : outcome (option search_results) :=
  Return (Some {| records := recs |}).

Definition answered : outcome ai_result := Return (ResObject (Some "Paris.")).

Definition stored : value :=
  JObj [("id", JStr "rec_1"); ("text", JStr paris)].

Definition healthy : collaborators :=
  fixed embedded (hits [weak_hit]) answered (Return stored).

Definition note_body : outcome value :=
  Return (JObj [("text", JStr paris)]).


(** The generation model hands back an object without [response]. *)
Definition silent : collaborators :=
  fixed embedded (hits []) (Return (ResObject None)) (Return stored).

(** The embedding model resolves with an empty [data]. *)
Definition dataless : collaborators :=
  fixed no_data (hits [weak_hit]) answered (Return stored).

End Sample.

(** ** Vocabulary for the call traces *)

(** The error a logged call was rejected with, if it was. *)
Definition thrown (ev : event) : option exn :=
  match ev with
  | AiRunEmbedding _ _ (Throw e)
  | NotesVectorSearch _ _ _ (Throw e)
  | AiRunChat _ _ _ (Throw e)
  | NotesCreate _ _ (Throw e) => Some e
  | _ => None
  end.

(** A hit whose score is a number other than zero and NaN. *)
Definition scored_nonzero (record : note_record) : bool :=
  match xata_score record with
  | Some s => number_truthy s
  | None => false
  end.

(** ** Proof support: running a handler symbolically *)

Ltac unfold_handlers :=
  unfold trace, result, run, GET_query, POST_notes,
    V1.GET_query, V2.GET_query, V1.POST_notes, V2.POST_notes,
    V1.notes_of, V2.get_records,
    req_json, get_text, run_embedding, first_row, vectorSearch, run_chat,
    create, reply, get_response, bind, await, ret, throw in *.

(** Case analysis on whatever the handler branches on next, innermost
    scrutinee first. *)
Ltac split_calls :=
  cbn in *;
  repeat (match goal with
    | |- context [match ?x with _ => _ end] =>
        lazymatch x with
        | context [match _ with _ => _ end] => fail
        | _ => destruct x eqn:?
        end
    | H : context [match ?x with _ => _ end] |- _ =>
        lazymatch x with
        | context [match _ with _ => _ end] => fail
        | _ => destruct x eqn:?
        end
    end; cbn in *).

(** Membership of a call in a trace that has been computed. *)
Ltac in_trace :=
  repeat match goal with
    | H : _ \/ _ |- _ => destruct H as [H | H]
    | H : False |- _ => destruct H
    | H : In _ (_ :: _) |- _ => destruct H as [H | H]
    | H : In _ [] |- _ => destruct H
    | H : @eq event _ _ |- _ =>
        first [discriminate H | inversion H; clear H; subst]
    end.

Ltac run_handler := unfold_handlers; split_calls; in_trace; cbn in *.

(** * Properties *)

(** ** Numbers and lists *)

(** Whatever lies below a negative number is negative. *)
Lemma gt_zero_antitone (c1 c2 : number) :
  le c1 c2 = true -> gt zero c2 = true -> gt zero c1 = true.
Proof.
  unfold le, gt, SFleb, SFltb, zero.
  destruct c1 as [s1 | s1 | | s1 m1 e1], c2 as [s2 | s2 | | s2 m2 e2];
    cbn; try destruct s1; try destruct s2; cbn; congruence.
Qed.

Lemma filter_length_mono {A : Type} (p q : A -> bool) (l : list A) :
  (forall x, p x = true -> q x = true) ->
  List.length (filter p l) <= List.length (filter q l).
Proof.
  intros Hpq. induction l as [| x l IH]; cbn; [lia |].
  destruct (p x) eqn:Hp.
  - rewrite (Hpq x Hp). cbn. lia.
  - destruct (q x); cbn; lia.
Qed.

Lemma has_length_cons {A : Type} (x : A) (l : list A) :
  has_length (x :: l) = true.
Proof. reflexivity. Qed.

Lemma has_length_true {A : Type} (l : list A) :
  l <> [] -> has_length l = true.
Proof. destruct l; [congruence | reflexivity]. Qed.

(** ** Context selection *)

(** Raising the cutoff can only turn the callback of revision 2 from
    truthy to falsy. *)
Lemma keep_antitone (c1 c2 : number) (record : note_record) :
  le c1 c2 = true ->
  truthy (V2.keep c2 record) = true -> truthy (V2.keep c1 record) = true.
Proof.
  intros Hle. unfold V2.keep.
  destruct (xata_score record) as [s |]; cbn; [trivial |].
  apply gt_zero_antitone. exact Hle.
Qed.

(** On hits that all carry a score the cutoff plays no part: a hit is kept
    exactly when its score is neither zero nor NaN. *)
Lemma notes_of_scored (cutoff : number) (recs : list note_record) :
  Forall (fun record => xata_score record <> None) recs ->
  V2.notes_of cutoff recs =
  map text
    (filter (fun record => number_truthy (coalesce (xata_score record) zero))
       recs).
Proof.
  intros Hall. unfold V2.notes_of.
  destruct recs as [| r recs]; [reflexivity |].
  rewrite has_length_cons. f_equal.
  induction Hall as [| x l Hx _ IH]; [reflexivity |].
  cbn [filter]. rewrite IH.
  unfold V2.keep. destruct (xata_score x); [reflexivity | congruence].
Qed.

(** C1: the context of a query is meant to hold exactly the hits whose
    score is strictly above the cutoff.  Revision 2, at its cutoff of 1.5,
    keeps a hit scored 1.0, where the assembler of the specification
    returns nothing; revision 1 keeps every hit. *)
Theorem context_keeps_hit_below_cutoff :
  gt (num 1 0) V2.SIMILARITY_CUTOFF = false /\
  V2.notes_of V2.SIMILARITY_CUTOFF [Sample.weak_hit] = [Sample.paris] /\
  assemble_spec [Sample.weak_hit] V2.SIMILARITY_CUTOFF 2 = [] /\
  V1.notes_of (Some {| records := [Sample.weak_hit] |}) = [Sample.paris].
Proof. repeat split. Qed.

(** C2: for a fixed list of hits and a fixed bound, raising the cutoff
    never makes the selected context longer, with or without truncation
    to [maxNotes]. *)
Theorem notes_of_monotonic_in_cutoff
    (recs : list note_record) (maxNotes : nat) (c1 c2 : number) :
  le c1 c2 = true ->
  List.length (V2.notes_of c2 recs) <= List.length (V2.notes_of c1 recs) /\
  List.length (firstn maxNotes (V2.notes_of c2 recs))
    <= List.length (firstn maxNotes (V2.notes_of c1 recs)).
Proof.
  intros Hle.
  assert (Hlen : List.length (V2.notes_of c2 recs)
                 <= List.length (V2.notes_of c1 recs)).
  { unfold V2.notes_of. destruct (has_length recs); [| reflexivity].
    rewrite !length_map. apply filter_length_mono.
    intros record. apply keep_antitone. exact Hle. }
  split; [exact Hlen |].
  rewrite !length_firstn. lia.
Qed.

Lemma notes_of_monotonic_in_cutoff_witness :
  le (num (-1) 0) V2.SIMILARITY_CUTOFF = true /\
  List.length
    (V2.notes_of V2.SIMILARITY_CUTOFF [Sample.weak_hit; Sample.unscored_hit])
  <= List.length
       (V2.notes_of (num (-1) 0) [Sample.weak_hit; Sample.unscored_hit]).
Proof.
  split; [reflexivity |].
  apply (notes_of_monotonic_in_cutoff
           [Sample.weak_hit; Sample.unscored_hit] 2
           (num (-1) 0) V2.SIMILARITY_CUTOFF).
  reflexivity.
Defined.

(** ** Prompt construction *)

(** C3: without context the prompt is the instruction message followed by
    the user message; with context it is the context block, the
    instruction message and the user message, in that order. *)
Theorem messages_shape (instruction question : string) (notes : list string) :
  messages instruction [] question =
    [{| msg_role := system; content := instruction |};
     {| msg_role := user; content := question |}] /\
  (notes <> [] ->
   messages instruction notes question =
     [{| msg_role := system; content := contextMessage notes |};
      {| msg_role := system; content := instruction |};
      {| msg_role := user; content := question |}]).
Proof.
  split; [reflexivity |].
  intros Hne. unfold messages. rewrite (has_length_true notes Hne).
  reflexivity.
Qed.

Lemma messages_shape_witness :
  [Sample.paris] <> [] /\
  messages systemPrompt [Sample.paris] "What is the capital of France?" =
    [{| msg_role := system;
        content :=
          ("Context:" ++ nl ++ "- Paris is the capital of France.")%string |};
     {| msg_role := system; content := systemPrompt |};
     {| msg_role := user; content := "What is the capital of France?" |}].
Proof.
  split; [discriminate |].
  apply (proj2 (messages_shape systemPrompt "What is the capital of France?"
                  [Sample.paris])).
  discriminate.
Defined.

(** ** Calls and prompts *)

Lemma messages_end_with_question (instruction question : string)
    (notes : list string) :
  exists front,
    messages instruction notes question =
    front ++ [{| msg_role := user; content := question |}].
Proof.
  unfold messages.
  exists ((if has_length notes
           then [{| msg_role := system; content := contextMessage notes |}]
           else [])
          ++ [{| msg_role := system; content := instruction |}]).
  rewrite <- app_assoc. reflexivity.
Qed.

Lemma or_else_default (q : option string) :
  q = None \/ q = Some EmptyString ->
  or_else q DEFAULT_QUESTION = DEFAULT_QUESTION.
Proof. intros [-> | ->]; reflexivity. Qed.

(** ** Generation *)

(** A rejected generation call rejects the request with the same error. *)
Lemma generation_rejection_propagates
    (rev : revision) (env : collaborators) (q : option string)
    (model : string) (msgs : list chat_message) (stream : bool) (e : exn) :
  In (AiRunChat model msgs stream (Throw e)) (trace (GET_query rev env q)) ->
  result (GET_query rev env q) = Throw e.
Proof.
  intros Hin. destruct rev; run_handler; first [reflexivity | congruence].
Qed.

(** A [null] result passes the guard and fails on [res.response]. *)
Lemma null_result_throws
    (rev : revision) (env : collaborators) (q : option string)
    (model : string) (msgs : list chat_message) (stream : bool) :
  In (AiRunChat model msgs stream (Return ResNull))
     (trace (GET_query rev env q)) ->
  result (GET_query rev env q) =
  Throw (TypeError "Cannot read properties of null (reading 'response')").
Proof.
  intros Hin. destruct rev; run_handler; first [reflexivity | congruence].
Qed.




(** C5: when the generation model resolves to an object that carries no
    [response], the request completes with "No response available". *)
Theorem missing_response_gives_sentinel
    (rev : revision) (env : collaborators) (q : option string)
    (model : string) (msgs : list chat_message) (stream : bool) :
  In (AiRunChat model msgs stream (Return (ResObject None)))
     (trace (GET_query rev env q)) ->
  result (GET_query rev env q) = Return (c_text "No response available").
Proof.
  intros Hin. destruct rev; run_handler; first [reflexivity | congruence].
Qed.

Lemma missing_response_gives_sentinel_witness :
  result (GET_query Rev2 Sample.silent (Some "What is 2+2?")) =
  Return (c_text "No response available").
Proof.
  apply (missing_response_gives_sentinel Rev2 Sample.silent
           (Some "What is 2+2?") CHAT_MODEL
           (messages systemPrompt [] "What is 2+2?") false).
  cbn. right. right. left. reflexivity.
Defined.

(** ** Embedding *)

(** A rejected embedding call rejects the query, and nothing else is
    called. *)
Lemma embedding_rejection_stops_query
    (rev : revision) (env : collaborators) (q : option string) (e : exn) :
  AI_run_embedding env EMBEDDING_MODEL [JStr (or_else q DEFAULT_QUESTION)] =
    Throw e ->
  run (GET_query rev env q) =
  (Throw e,
   [AiRunEmbedding EMBEDDING_MODEL [JStr (or_else q DEFAULT_QUESTION)]
      (Throw e)]).
Proof.
  intros He. destruct rev; unfold_handlers; cbn; rewrite He; reflexivity.
Qed.

(** The search of a query is issued with [data[0]] of the embedding that
    resolved before it, whatever that is. *)
Lemma search_follows_embedding
    (rev : revision) (env : collaborators) (q : option string)
    (column : string) (v : option vector) (opts : search_options)
    (out : outcome (option search_results)) :
  In (NotesVectorSearch column v opts out) (trace (GET_query rev env q)) ->
  exists rows,
    AI_run_embedding env EMBEDDING_MODEL [JStr (or_else q DEFAULT_QUESTION)] =
      Return {| data := Some rows |} /\
    v = nth_error rows 0.
Proof.
  intros Hin.
  destruct rev; run_handler; try discriminate;
    match goal with
    | H : data ?a = Some ?rows |- _ =>
        exists rows; destruct a as [d]; cbn in *; subst;
        split; reflexivity
    end.
Qed.

(** C6: a failed embedding is meant to reject the query before the store
    is searched.  When the embedding model resolves with an empty [data],
    both revisions of the query handler search the store with an
    undefined vector and answer; the notes handler, on the same output,
    rejects the request before its store call. *)
Theorem query_searches_without_vector (rev : revision) :
  embedding_failed Sample.no_data /\
  run (GET_query rev Sample.dataless (Some "What is the capital of France?")) =
    (Return (c_text "Paris."),
     [AiRunEmbedding EMBEDDING_MODEL [JStr "What is the capital of France?"]
        Sample.no_data;
      NotesVectorSearch "embedding" None SEARCH_OPTIONS
        (Sample.hits [Sample.weak_hit]);
      AiRunChat CHAT_MODEL
        (messages systemPrompt [Sample.paris] "What is the capital of France?")
        false Sample.answered]) /\
  run (POST_notes rev Sample.dataless Sample.note_body) =
    (Throw (HTTPException 500 "Failed to create vector embedding"),
     [AiRunEmbedding EMBEDDING_MODEL [JStr Sample.paris] Sample.no_data]).
Proof.
  destruct rev; repeat split.
Qed.

(** ** Question fallback *)

(** Every query starts by embedding its question. *)
Lemma query_embeds_first
    (rev : revision) (env : collaborators) (q : option string) :
  hd_error (trace (GET_query rev env q)) =
  Some (AiRunEmbedding EMBEDDING_MODEL [JStr (or_else q DEFAULT_QUESTION)]
          (AI_run_embedding env EMBEDDING_MODEL
             [JStr (or_else q DEFAULT_QUESTION)])).
Proof.
  destruct rev; unfold_handlers; split_calls; first [reflexivity | congruence].
Qed.

(** C8: an absent or empty question is replaced by the default question:
    the request runs exactly as it does for the default question, and its
    first call embeds that question. *)
Theorem empty_question_uses_default
    (rev : revision) (env : collaborators) (q : option string) :
  q = None \/ q = Some EmptyString ->
  run (GET_query rev env q) = run (GET_query rev env (Some DEFAULT_QUESTION)) /\
  hd_error (trace (GET_query rev env q)) =
    Some (AiRunEmbedding EMBEDDING_MODEL
            [JStr "What is the square root of 9?"]
            (AI_run_embedding env EMBEDDING_MODEL
               [JStr "What is the square root of 9?"])).
Proof.
  intros Hq. split.
  - destruct Hq as [-> | ->]; destruct rev; reflexivity.
  - rewrite query_embeds_first, (or_else_default q Hq). reflexivity.
Qed.

Lemma empty_question_uses_default_witness :
  run (GET_query Rev2 Sample.healthy (Some EmptyString)) =
    run (GET_query Rev2 Sample.healthy (Some DEFAULT_QUESTION)) /\
  result (GET_query Rev2 Sample.healthy (Some EmptyString)) =
    Return (c_text "Paris.").
Proof.
  split; [| reflexivity].
  apply (empty_question_uses_default Rev2 Sample.healthy (Some EmptyString)).
  right. reflexivity.
Defined.

(** The embedding call of a query carries the question, alone. *)
Lemma embedding_call_is_question
    (rev : revision) (env : collaborators) (q : option string)
    (model : string) (texts : list value) (out : outcome embedding_output) :
  In (AiRunEmbedding model texts out) (trace (GET_query rev env q)) ->
  texts = [JStr (or_else q DEFAULT_QUESTION)].
Proof.
  intros Hin. destruct rev; run_handler; first [reflexivity | congruence].
Qed.

(** The generation call of a query carries the prompt built from the
    question, and asks for no stream. *)
Lemma chat_prompt_is_messages
    (rev : revision) (env : collaborators) (q : option string)
    (model : string) (msgs : list chat_message) (stream : bool)
    (out : outcome ai_result) :
  In (AiRunChat model msgs stream out) (trace (GET_query rev env q)) ->
  exists notes,
    msgs = messages systemPrompt notes (or_else q DEFAULT_QUESTION) /\
    model = CHAT_MODEL /\ stream = false.
Proof.
  intros Hin.
  destruct rev; run_handler; try discriminate;
    eexists; repeat split; reflexivity.
Qed.

(** C10: the text handed to the embedding model is the content of the
    user message that closes the prompt; for an absent or empty question
    both are the default question. *)
Theorem embedded_text_is_asked
    (rev : revision) (env : collaborators) (q : option string)
    (model : string) (texts : list value) (out : outcome embedding_output)
    (model' : string) (msgs : list chat_message) (stream : bool)
    (out' : outcome ai_result) :
  In (AiRunEmbedding model texts out) (trace (GET_query rev env q)) ->
  In (AiRunChat model' msgs stream out') (trace (GET_query rev env q)) ->
  exists question front,
    texts = [JStr question] /\
    msgs = front ++ [{| msg_role := user; content := question |}] /\
    question = or_else q DEFAULT_QUESTION /\
    (q = None \/ q = Some EmptyString -> question = DEFAULT_QUESTION).
Proof.
  intros Hemb Hchat.
  exists (or_else q DEFAULT_QUESTION).
  destruct (chat_prompt_is_messages _ _ _ _ _ _ _ Hchat)
    as (notes & -> & _ & _).
  destruct (messages_end_with_question systemPrompt
              (or_else q DEFAULT_QUESTION) notes) as [front Hfront].
  exists front. repeat split.
  - exact (embedding_call_is_question _ _ _ _ _ _ Hemb).
  - exact Hfront.
  - apply or_else_default.
Qed.

Lemma embedded_text_is_asked_witness :
  exists question front,
    [JStr DEFAULT_QUESTION] = [JStr question] /\
    messages systemPrompt [Sample.paris] DEFAULT_QUESTION =
      front ++ [{| msg_role := user; content := question |}] /\
    question = or_else None DEFAULT_QUESTION /\
    (@None string = None \/ None = Some EmptyString ->
     question = DEFAULT_QUESTION).
Proof.
  apply (embedded_text_is_asked Rev2 Sample.healthy None
           EMBEDDING_MODEL [JStr DEFAULT_QUESTION] Sample.embedded
           CHAT_MODEL (messages systemPrompt [Sample.paris] DEFAULT_QUESTION)
           false Sample.answered).
  - cbn. left. reflexivity.
  - cbn. right. right. left. reflexivity.
Defined.

(** ** Ingestion *)

(** A request whose body destructures to a falsy [text] is rejected
    before any collaborator is called. *)
Lemma notes_rejects_missing_text
    (rev : revision) (env : collaborators) (body t : value) :
  result (get_text body) = Return t ->
  truthy t = false ->
  run (POST_notes rev env (Return body)) =
  (Throw (HTTPException 400 "Missing text"), []).
Proof.
  intros Ht Hfalsy.
  destruct rev; unfold_handlers; destruct body; cbn in Ht |- *;
    try discriminate Ht; injection Ht as <-;
    try rewrite Hfalsy; reflexivity.
Qed.

(** A trace that holds a write is an embedding call that produced the
    written vector, followed by that write. *)
Lemma notes_write_trace
    (rev : revision) (env : collaborators) (parsed : outcome value)
    (t : value) (v : vector) (out : outcome value) :
  In (NotesCreate t v out) (trace (POST_notes rev env parsed)) ->
  exists rows,
    trace (POST_notes rev env parsed) =
    [AiRunEmbedding EMBEDDING_MODEL [t]
       (Return {| data := Some (v :: rows) |});
     NotesCreate t v out].
Proof.
  intros Hin.
  destruct rev; run_handler; try discriminate;
    match goal with
    | H : data ?a = Some (_ :: ?rows) |- _ =>
        exists rows; destruct a as [d]; cbn in *; subst; reflexivity
    end.
Qed.

(** X17: a request whose body can be destructured and holds a falsy
    [text] (absent, [null], empty, [0] or [false]) is rejected with the
    status-400 exception "Missing text" and calls no collaborator; in any
    request a write, if there is one, is the only write and comes right
    after an embedding call that produced its vector, so that a failed
    embedding is never followed by a write. *)
Theorem notes_write_follows_embedding
    (rev : revision) (env : collaborators) (parsed : outcome value) :
  (forall body t,
     parsed = Return body ->
     result (get_text body) = Return t ->
     truthy t = false ->
     run (POST_notes rev env parsed) =
     (Throw (HTTPException 400 "Missing text"), [])) /\
  (forall t v out,
     In (NotesCreate t v out) (trace (POST_notes rev env parsed)) ->
     exists rows,
       trace (POST_notes rev env parsed) =
       [AiRunEmbedding EMBEDDING_MODEL [t]
          (Return {| data := Some (v :: rows) |});
        NotesCreate t v out]) /\
  (forall model texts out,
     In (AiRunEmbedding model texts out) (trace (POST_notes rev env parsed)) ->
     embedding_failed out ->
     forall t v o,
       ~ In (NotesCreate t v o) (trace (POST_notes rev env parsed))).
Proof.
  split; [| split].
  - intros body t -> Ht Hfalsy.
    exact (notes_rejects_missing_text rev env body t Ht Hfalsy).
  - intros t v out. apply notes_write_trace.
  - intros model texts out Hemb Hfailed t v o Hwrite.
    destruct (notes_write_trace rev env parsed t v o Hwrite) as [rows Htrace].
    rewrite Htrace in Hemb.
    destruct Hemb as [Hemb | [Hemb | []]]; [| discriminate Hemb].
    injection Hemb as _ _ <-. exact Hfailed.
Qed.

Lemma notes_write_follows_embedding_witness :
  run (POST_notes Rev2 Sample.healthy
         (Return (JObj [("text", JStr EmptyString)]))) =
    (Throw (HTTPException 400 "Missing text"), []) /\
  run (POST_notes Rev1 Sample.healthy (Return (JObj []))) =
    (Throw (HTTPException 400 "Missing text"), []) /\
  (exists rows,
     trace (POST_notes Rev1 Sample.healthy Sample.note_body) =
     [AiRunEmbedding EMBEDDING_MODEL [JStr Sample.paris]
        (Return {| data := Some (Sample.vec :: rows) |});
      NotesCreate (JStr Sample.paris) Sample.vec (Return Sample.stored)]) /\
  ~ In (NotesCreate (JStr Sample.paris) Sample.vec (Return Sample.stored))
      (trace (POST_notes Rev1 Sample.dataless Sample.note_body)).
Proof.
  split; [| split; [| split]].
  - apply (proj1 (notes_write_follows_embedding Rev2 Sample.healthy
                    (Return (JObj [("text", JStr EmptyString)])))
             (JObj [("text", JStr EmptyString)]) (JStr EmptyString));
      reflexivity.
  - apply (proj1 (notes_write_follows_embedding Rev1 Sample.healthy
                    (Return (JObj [])))
             (JObj []) JUndefined);
      reflexivity.
  - apply (proj1 (proj2 (notes_write_follows_embedding Rev1 Sample.healthy
                           Sample.note_body))).
    cbn. right. left. reflexivity.
  - apply (proj2 (proj2 (notes_write_follows_embedding Rev1 Sample.dataless
                           Sample.note_body))
             EMBEDDING_MODEL [JStr Sample.paris] Sample.no_data).
    + cbn. left. reflexivity.
    + exact I.
Defined.

(** C7: a request that carries no [text] is meant to be rejected with the
    status-400 exception "Missing text".  A body that parses to [null]
    carries none, yet both revisions fail on it with the TypeError of the
    destructuring, ahead of the check that gives the 400 to the bodies
    [{}], [{ text: null }] and [{ text: '' }]; no collaborator is
    called in any of these cases. *)
Theorem null_body_escapes_validation
    (rev : revision) (env : collaborators) :
  (exists msg,
     run (POST_notes rev env (Return JNull)) = (Throw (TypeError msg), [])) /\
  result (POST_notes rev env (Return JNull)) <>
    Throw (HTTPException 400 "Missing text") /\
  run (POST_notes rev env (Return (JObj []))) =
    (Throw (HTTPException 400 "Missing text"), []) /\
  run (POST_notes rev env (Return (JObj [("text", JNull)]))) =
    (Throw (HTTPException 400 "Missing text"), []) /\
  run (POST_notes rev env (Return (JObj [("text", JStr EmptyString)]))) =
    (Throw (HTTPException 400 "Missing text"), []).
Proof.
  repeat split.
  - eexists. destruct rev; reflexivity.
  - destruct rev; discriminate.
  - destruct rev; reflexivity.
  - destruct rev; reflexivity.
  - destruct rev; reflexivity.
Qed.

(** C9 as stated does not hold: revision 2 replies to a successful
    request with an object that holds the created record and no [text]
    property. *)
Lemma created_reply_lacks_text :
  result (POST_notes Rev2 Sample.healthy Sample.note_body) =
    Return (c_json (JObj [("inserted", Sample.stored)])) /\
  lookup "text" [("inserted", Sample.stored)] = None.
Proof. split; reflexivity. Qed.

(** C9, amended: a successful request is answered with an object that
    holds, under [inserted], the record the store returned for the
    request's [text]; revision 1 puts that [text] before it, revision 2
    puts nothing else. *)
Theorem created_reply_shape
    (rev : revision) (env : collaborators) (parsed : outcome value)
    (body : response) :
  result (POST_notes rev env parsed) = Return body ->
  exists props t v inserted,
    parsed = Return (JObj props) /\
    lookup "text" props = Some t /\
    In (NotesCreate t v (Return inserted))
       (trace (POST_notes rev env parsed)) /\
    match rev with
    | Rev1 => body = c_json (JObj [("text", t); ("inserted", inserted)])
    | Rev2 => body = c_json (JObj [("inserted", inserted)])
    end.
Proof.
  intros Hok.
  destruct rev; run_handler; try discriminate;
    injection Hok as <-;
    match goal with
    | H : negb (truthy (coalesce (lookup "text" ?props) JUndefined)) = false
      |- _ =>
        destruct (lookup "text" props) as [t |] eqn:Hlookup;
        cbn in H; [| discriminate H]
    end;
    eexists _, t, _, _; repeat split;
    first [reflexivity | assumption | cbn; right; left; reflexivity].
Qed.

Lemma created_reply_shape_witness :
  exists props t v inserted,
    Sample.note_body = Return (JObj props) /\
    lookup "text" props = Some t /\
    In (NotesCreate t v (Return inserted))
       (trace (POST_notes Rev1 Sample.healthy Sample.note_body)) /\
    c_json (JObj [("text", JStr Sample.paris); ("inserted", Sample.stored)]) =
    c_json (JObj [("text", t); ("inserted", inserted)]).
Proof.
  apply (created_reply_shape Rev1 Sample.healthy Sample.note_body
           (c_json (JObj [("text", JStr Sample.paris);
                          ("inserted", Sample.stored)]))).
  reflexivity.
Defined.

(** * Further properties of the handlers *)

(** ** The calls of a query *)

(** X1: a query calls the embedding model, then the vector search, then
    the generation model, each at most once and in that order; it never
    writes to the store, and a query that replies has made all three
    calls. *)
Theorem query_calls_in_order
    (rev : revision) (env : collaborators) (q : option string) :
  let question := or_else q DEFAULT_QUESTION in
  ((exists eo,
      trace (GET_query rev env q) =
      [AiRunEmbedding EMBEDDING_MODEL [JStr question] eo]) \/
   (exists eo v so,
      trace (GET_query rev env q) =
      [AiRunEmbedding EMBEDDING_MODEL [JStr question] eo;
       NotesVectorSearch "embedding" v SEARCH_OPTIONS so]) \/
   (exists eo v so msgs co,
      trace (GET_query rev env q) =
      [AiRunEmbedding EMBEDDING_MODEL [JStr question] eo;
       NotesVectorSearch "embedding" v SEARCH_OPTIONS so;
       AiRunChat CHAT_MODEL msgs false co])) /\
  (forall t v o, ~ In (NotesCreate t v o) (trace (GET_query rev env q))) /\
  (forall body,
     result (GET_query rev env q) = Return body ->
     List.length (trace (GET_query rev env q)) = 3).
Proof.
  cbn zeta. split; [| split].
  - destruct rev; unfold_handlers; split_calls;
      first [ left; eexists; reflexivity
            | right; left; do 3 eexists; reflexivity
            | right; right; do 5 eexists; reflexivity ].
  - intros t v o Hin. destruct rev; run_handler; discriminate.
  - intros body Hok.
    destruct rev; run_handler; first [reflexivity | discriminate].
Qed.

Lemma query_calls_in_order_witness :
  List.length (trace (GET_query Rev2 Sample.healthy None)) = 3.
Proof.
  apply (proj2 (proj2 (query_calls_in_order Rev2 Sample.healthy None))
           (c_text "Paris.")).
  reflexivity.
Defined.

(** X2: the vector search of a query is made on the column [embedding],
    asks for two hits by cosine similarity, and is given the first row of
    the embedding output, or [undefined] when that output has no row. *)
Theorem search_uses_first_embedding_row
    (rev : revision) (env : collaborators) (q : option string)
    (column : string) (v : option vector) (opts : search_options)
    (out : outcome (option search_results)) :
  In (NotesVectorSearch column v opts out) (trace (GET_query rev env q)) ->
  column = "embedding" /\
  opts = {| similarityFunction := "cosineSimilarity"; size := 2 |} /\
  exists rows,
    In (AiRunEmbedding EMBEDDING_MODEL [JStr (or_else q DEFAULT_QUESTION)]
          (Return {| data := Some rows |}))
       (trace (GET_query rev env q)) /\
    v = nth_error rows 0.
Proof.
  intros Hin.
  destruct rev; run_handler; try discriminate;
    (split; [reflexivity |]); (split; [reflexivity |]);
    match goal with
    | H : data ?a = Some ?rows |- _ =>
        exists rows; destruct a as [d]; cbn in *; subst;
        split; [left; reflexivity | reflexivity]
    end.
Qed.

Lemma search_uses_first_embedding_row_witness :
  exists rows,
    In (AiRunEmbedding EMBEDDING_MODEL [JStr DEFAULT_QUESTION]
          (Return {| data := Some rows |}))
       (trace (GET_query Rev1 Sample.healthy None)) /\
    Some Sample.vec = nth_error rows 0.
Proof.
  apply (search_uses_first_embedding_row Rev1 Sample.healthy None
           "embedding" (Some Sample.vec) SEARCH_OPTIONS
           (Sample.hits [Sample.weak_hit])).
  cbn. right. left. reflexivity.
Defined.

(** X3: the outcome of the generation call decides the reply: a rejection
    is rethrown, a [response] text is sent verbatim, a missing [response]
    becomes "No response available", a stream or a non-object becomes
    "Unable to process the AI response.", and [null] ends in a
    TypeError. *)
Theorem generation_outcome_decides_reply
    (rev : revision) (env : collaborators) (q : option string)
    (model : string) (msgs : list chat_message) (stream : bool)
    (out : outcome ai_result) :
  In (AiRunChat model msgs stream out) (trace (GET_query rev env q)) ->
  match out with
  | Throw e => result (GET_query rev env q) = Throw e
  | Return (ResObject (Some answer)) =>
      result (GET_query rev env q) = Return (c_text answer)
  | Return (ResObject None) =>
      result (GET_query rev env q) = Return (c_text "No response available")
  | Return ResStream | Return ResOther =>
      result (GET_query rev env q) =
      Return (c_text "Unable to process the AI response.")
  | Return ResNull =>
      exists msg, result (GET_query rev env q) = Throw (TypeError msg)
  end.
Proof.
  intros Hin.
  destruct rev; run_handler; try discriminate;
    first [reflexivity | eexists; reflexivity].
Qed.

Lemma generation_outcome_decides_reply_witness :
  result (GET_query Rev1 Sample.healthy (Some "What is 2+2?")) =
  Return (c_text "Paris.").
Proof.
  apply (generation_outcome_decides_reply Rev1 Sample.healthy
           (Some "What is 2+2?") CHAT_MODEL
           (messages systemPrompt [Sample.paris] "What is 2+2?") false
           Sample.answered).
  cbn. right. right. left. reflexivity.
Defined.

(** ** How a query fails *)

(** X4: a query that fails either rethrows the rejection of the call it
    made last, or fails with a TypeError; the handler raises no
    HTTPException of its own. *)
Theorem query_failure_sources
    (rev : revision) (env : collaborators) (q : option string) (e : exn) :
  result (GET_query rev env q) = Throw e ->
  (exists ev,
     hd_error (List.rev (trace (GET_query rev env q))) = Some ev /\
     thrown ev = Some e) \/
  (exists msg, e = TypeError msg).
Proof.
  intros Hfail.
  destruct rev; run_handler; try discriminate;
    injection Hfail as <-;
    first [ left; eexists; split; reflexivity
          | right; eexists; reflexivity ].
Qed.

Lemma query_failure_sources_witness :
  (exists ev,
     hd_error
       (List.rev
          (trace
             (GET_query Rev2
                (Sample.fixed Sample.embedded (Throw (Rejected "store down"))
                   Sample.answered (Return Sample.stored))
                None))) = Some ev /\
     thrown ev = Some (Rejected "store down")) \/
  (exists msg, Rejected "store down" = TypeError msg).
Proof.
  apply (query_failure_sources Rev2
           (Sample.fixed Sample.embedded (Throw (Rejected "store down"))
              Sample.answered (Return Sample.stored))
           None (Rejected "store down")).
  reflexivity.
Defined.

(** X5: when the vector search is rejected, the query fails with the same
    error and the generation model is not called. *)
Theorem search_rejection_stops_query
    (rev : revision) (env : collaborators) (q : option string)
    (column : string) (v : option vector) (opts : search_options) (e : exn) :
  In (NotesVectorSearch column v opts (Throw e))
     (trace (GET_query rev env q)) ->
  result (GET_query rev env q) = Throw e /\
  forall model msgs stream out,
    ~ In (AiRunChat model msgs stream out) (trace (GET_query rev env q)).
Proof.
  intros Hin.
  destruct rev; run_handler; try discriminate;
    (split; [congruence |]);
    intros model msgs stream out Hchat; in_trace.
Qed.

Lemma search_rejection_stops_query_witness :
  result
    (GET_query Rev1
       (Sample.fixed Sample.embedded (Throw (Rejected "store down"))
          Sample.answered (Return Sample.stored))
       None) =
  Throw (Rejected "store down").
Proof.
  apply (search_rejection_stops_query Rev1
           (Sample.fixed Sample.embedded (Throw (Rejected "store down"))
              Sample.answered (Return Sample.stored))
           None "embedding" (Some Sample.vec) SEARCH_OPTIONS
           (Rejected "store down")).
  cbn. right. left. reflexivity.
Defined.

(** X6: when the embedding call is rejected, or resolves to an output
    without [data], the query fails after that one call: with the
    rejection in the first case, with a TypeError in the second. *)
Theorem embedding_failure_stops_query
    (rev : revision) (env : collaborators) (q : option string)
    (model : string) (texts : list value) (out : outcome embedding_output) :
  In (AiRunEmbedding model texts out) (trace (GET_query rev env q)) ->
  match out with
  | Throw e =>
      run (GET_query rev env q) =
      (Throw e, [AiRunEmbedding model texts out])
  | Return o =>
      data o = None ->
      trace (GET_query rev env q) = [AiRunEmbedding model texts out] /\
      exists msg, result (GET_query rev env q) = Throw (TypeError msg)
  end.
Proof.
  intros Hin.
  destruct rev; run_handler; try discriminate;
    try reflexivity; try congruence;
    intros Hnone; try congruence;
    (split; [reflexivity | eexists; reflexivity]).
Qed.

Lemma embedding_failure_stops_query_witness :
  run (GET_query Rev2
         (Sample.fixed (Throw (Rejected "model down"))
            (Sample.hits []) Sample.answered (Return Sample.stored))
         (Some "What is 2+2?")) =
  (Throw (Rejected "model down"),
   [AiRunEmbedding EMBEDDING_MODEL [JStr "What is 2+2?"]
      (Throw (Rejected "model down"))]).
Proof.
  apply (embedding_failure_stops_query Rev2
           (Sample.fixed (Throw (Rejected "model down"))
              (Sample.hits []) Sample.answered (Return Sample.stored))
           (Some "What is 2+2?") EMBEDDING_MODEL [JStr "What is 2+2?"]
           (Throw (Rejected "model down"))).
  cbn. left. reflexivity.
Defined.

(** ** From retrieval to prompt *)

(** X7: when the search resolves to a result, the generation model is
    called, once, with the prompt built from the fixed instruction, the
    question and the selected notes: every hit in revision 1, the hits
    that pass the filter at the cutoff 1.5 in revision 2. *)
Theorem retrieval_feeds_prompt
    (rev : revision) (env : collaborators) (q : option string)
    (column : string) (v : option vector) (opts : search_options)
    (r : search_results) :
  In (NotesVectorSearch column v opts (Return (Some r)))
     (trace (GET_query rev env q)) ->
  let notes :=
    match rev with
    | Rev1 => map text (records r)
    | Rev2 => V2.notes_of V2.SIMILARITY_CUTOFF (records r)
    end in
  let msgs := messages systemPrompt notes (or_else q DEFAULT_QUESTION) in
  In (AiRunChat CHAT_MODEL msgs false (AI_run_chat env CHAT_MODEL msgs false))
     (trace (GET_query rev env q)).
Proof.
  intros Hin. cbn zeta.
  destruct rev; run_handler; try discriminate;
    repeat match goal with
      | H : AI_run_chat _ _ _ _ = _ |- _ => rewrite H
      end;
    right; right; left; reflexivity.
Qed.

Lemma retrieval_feeds_prompt_witness :
  In (AiRunChat CHAT_MODEL
        (messages systemPrompt [Sample.paris] "What is 2+2?") false
        Sample.answered)
     (trace (GET_query Rev1 Sample.healthy (Some "What is 2+2?"))).
Proof.
  apply (retrieval_feeds_prompt Rev1 Sample.healthy (Some "What is 2+2?")
           "embedding" (Some Sample.vec) SEARCH_OPTIONS
           {| records := [Sample.weak_hit] |}).
  cbn. right. left. reflexivity.
Defined.

(** X8: a search that finds nothing is no failure: on an empty list of
    hits the generation model is asked with the two-message prompt, the
    instruction and then the question.  On an undefined search result
    revision 1 does the same, while revision 2 fails with a TypeError
    without calling the generation model. *)
Theorem empty_retrieval_prompt
    (rev : revision) (env : collaborators) (q : option string)
    (column : string) (v : option vector) (opts : search_options)
    (found : option search_results) :
  In (NotesVectorSearch column v opts (Return found))
     (trace (GET_query rev env q)) ->
  let msgs :=
    [{| msg_role := system; content := systemPrompt |};
     {| msg_role := user; content := or_else q DEFAULT_QUESTION |}] in
  let asked :=
    In (AiRunChat CHAT_MODEL msgs false (AI_run_chat env CHAT_MODEL msgs false))
       (trace (GET_query rev env q)) in
  match found, rev with
  | Some r, _ => records r = [] -> asked
  | None, Rev1 => asked
  | None, Rev2 =>
      (exists msg, result (GET_query rev env q) = Throw (TypeError msg)) /\
      List.length (trace (GET_query rev env q)) = 2
  end.
Proof.
  intros Hin. cbn zeta.
  destruct rev; run_handler; try discriminate;
    try (split; [eexists; reflexivity | reflexivity]);
    try intros Hnil;
    repeat match goal with
      | H : records _ = [] |- _ => rewrite H in *
      end;
    unfold messages in *; cbn in *;
    repeat match goal with
      | H : AI_run_chat _ _ _ _ = _ |- _ => rewrite H
      end;
    right; right; left; reflexivity.
Qed.

Lemma empty_retrieval_prompt_witness :
  In (AiRunChat CHAT_MODEL
        [{| msg_role := system; content := systemPrompt |};
         {| msg_role := user; content := "What is 2+2?" |}]
        false (Return (ResObject None)))
     (trace (GET_query Rev2 Sample.silent (Some "What is 2+2?"))).
Proof.
  apply (empty_retrieval_prompt Rev2 Sample.silent (Some "What is 2+2?")
           "embedding" (Some Sample.vec) SEARCH_OPTIONS
           (Some {| records := [] |})).
  - cbn. right. left. reflexivity.
  - reflexivity.
Defined.

(** ** What the filter of revision 2 selects *)

Lemma not_below_zero (cutoff : number) :
  le zero cutoff = true -> gt zero cutoff = false.
Proof.
  unfold le, gt, SFleb, SFltb, zero.
  destruct cutoff as [s | s | | s m e]; cbn; try destruct s; cbn; congruence.
Qed.

(** At a cutoff that is not negative the callback is truthy exactly on
    the hits scored other than zero and NaN. *)
Lemma keep_at_nonnegative_cutoff (cutoff : number) (record : note_record) :
  le zero cutoff = true ->
  truthy (V2.keep cutoff record) = scored_nonzero record.
Proof.
  intros Hle. unfold V2.keep, scored_nonzero.
  destruct (xata_score record); cbn; [reflexivity |].
  apply not_below_zero. exact Hle.
Qed.

(** X9: at any cutoff that is not negative, and so at the 1.5 the handler
    uses, the filter of revision 2 does not compare scores with the
    cutoff: it keeps, in their order, exactly the hits whose score is a
    number other than zero and NaN, and drops the hits without score. *)
Theorem notes_of_at_nonnegative_cutoff
    (cutoff : number) (recs : list note_record) :
  le zero cutoff = true ->
  V2.notes_of cutoff recs = map text (filter scored_nonzero recs).
Proof.
  intros Hle. unfold V2.notes_of.
  destruct recs as [| r recs]; [reflexivity |].
  rewrite has_length_cons. f_equal.
  apply filter_ext. intros record.
  apply keep_at_nonnegative_cutoff. exact Hle.
Qed.

Lemma notes_of_at_nonnegative_cutoff_witness :
  V2.notes_of V2.SIMILARITY_CUTOFF
    [Sample.weak_hit; Sample.unscored_hit;
     {| text := "Oslo is in Norway."; xata_score := Some (num 7 (-2)) |};
     {| text := "Bern is in Switzerland."; xata_score := Some zero |}] =
  [Sample.paris; "Oslo is in Norway."].
Proof.
  apply (notes_of_at_nonnegative_cutoff V2.SIMILARITY_CUTOFF
           [Sample.weak_hit; Sample.unscored_hit;
            {| text := "Oslo is in Norway.";
               xata_score := Some (num 7 (-2)) |};
            {| text := "Bern is in Switzerland.";
               xata_score := Some zero |}]).
  reflexivity.
Defined.

Lemma filter_all {A : Type} (p : A -> bool) (l : list A) :
  forallb p l = true -> filter p l = l.
Proof.
  induction l as [| x l IH]; cbn; [reflexivity |].
  intros H. apply andb_prop in H as [Hx Hl].
  rewrite Hx, (IH Hl). reflexivity.
Qed.

(** A logged search is the store's answer to the first row of the
    embedding that resolved before it. *)
Lemma search_answer_of_query
    (rev : revision) (env : collaborators) (q : option string)
    (column : string) (v : option vector) (opts : search_options)
    (out : outcome (option search_results)) :
  In (NotesVectorSearch column v opts out) (trace (GET_query rev env q)) ->
  exists rows,
    AI_run_embedding env EMBEDDING_MODEL [JStr (or_else q DEFAULT_QUESTION)] =
      Return {| data := Some rows |} /\
    Notes_vectorSearch env "embedding" (nth_error rows 0) SEARCH_OPTIONS = out.
Proof.
  intros Hin.
  destruct rev; run_handler; try discriminate;
    match goal with
    | H : data ?a = Some ?rows |- _ =>
        exists rows; destruct a as [d]; cbn in *; subst;
        split; [reflexivity | assumption]
    end.
Qed.

(** X10: on a search result whose hits all carry a score other than zero
    and NaN, the two revisions of the query handler make the same calls
    and give the same reply. *)
Theorem revisions_agree_on_scored_hits
    (env : collaborators) (q : option string)
    (column : string) (v : option vector) (opts : search_options)
    (r : search_results) :
  In (NotesVectorSearch column v opts (Return (Some r)))
     (trace (GET_query Rev1 env q)) ->
  forallb scored_nonzero (records r) = true ->
  run (GET_query Rev2 env q) = run (GET_query Rev1 env q).
Proof.
  intros Hin Hall.
  assert (Hsame : V2.notes_of V2.SIMILARITY_CUTOFF (records r) =
                  map text (records r)).
  { unfold V2.notes_of.
    destruct (records r) as [| x l]; [reflexivity |].
    rewrite has_length_cons. f_equal.
    rewrite <- (filter_all _ _ Hall) at 2.
    apply filter_ext. intros record.
    apply keep_at_nonnegative_cutoff. reflexivity. }
  destruct (search_answer_of_query Rev1 env q _ _ _ _ Hin)
    as (rows & Hemb & Hsearch).
  unfold_handlers.
  remember (V2.notes_of V2.SIMILARITY_CUTOFF) as select eqn:Hselect.
  cbn. rewrite Hemb. cbn in Hsearch |- *. rewrite Hsearch. cbn.
  subst select. rewrite Hsame. reflexivity.
Qed.

Lemma revisions_agree_on_scored_hits_witness :
  run (GET_query Rev2 Sample.healthy (Some "What is 2+2?")) =
  run (GET_query Rev1 Sample.healthy (Some "What is 2+2?")).
Proof.
  apply (revisions_agree_on_scored_hits Sample.healthy (Some "What is 2+2?")
           "embedding" (Some Sample.vec) SEARCH_OPTIONS
           {| records := [Sample.weak_hit] |}).
  - cbn. right. left. reflexivity.
  - reflexivity.
Defined.

(** ** The size of the context block *)

Lemma length_append (a b : string) :
  String.length (a ++ b)%string = String.length a + String.length b.
Proof.
  induction a as [| c a IH]; cbn; [reflexivity |].
  rewrite IH. reflexivity.
Qed.

Lemma length_join (sep x : string) (xs : list string) :
  String.length (join sep (x :: xs)) + String.length sep =
  list_sum (map (fun y => String.length y + String.length sep) (x :: xs)).
Proof.
  unfold join. revert x.
  induction xs as [| y ys IH]; intros x.
  - cbn. lia.
  - change (String.concat sep (x :: y :: ys))
      with (x ++ sep ++ String.concat sep (y :: ys))%string.
    rewrite !length_append.
    change (map (fun y => String.length y + String.length sep) (x :: y :: ys))
      with ((String.length x + String.length sep)
            :: map (fun y => String.length y + String.length sep) (y :: ys)).
    cbn [list_sum fold_right]. fold (list_sum
      (map (fun y => String.length y + String.length sep) (y :: ys))).
    rewrite <- (IH y). lia.
Qed.

(** X11: the context block is empty exactly when no note was selected;
    otherwise its length is 8, for the heading, plus 3 and its own length
    for every note. *)
Theorem context_block_length (notes : list string) :
  (contextMessage notes = EmptyString <-> notes = []) /\
  String.length (contextMessage notes) =
    match notes with
    | [] => 0
    | _ :: _ =>
        8 + list_sum (map (fun note => 3 + String.length note) notes)
    end.
Proof.
  assert (Hlen : String.length (contextMessage notes) =
                 match notes with
                 | [] => 0
                 | _ :: _ =>
                     8 + list_sum
                           (map (fun note => 3 + String.length note) notes)
                 end).
  { destruct notes as [| n ns]; [reflexivity |].
    unfold contextMessage. rewrite has_length_cons.
    rewrite !length_append.
    pose proof (length_join nl ("- " ++ n)%string
                  (map (fun note => ("- " ++ note)%string) ns)) as Hjoin.
    change (("- " ++ n)%string :: map (fun note => ("- " ++ note)%string) ns)
      with (map (fun note => ("- " ++ note)%string) (n :: ns)) in Hjoin.
    rewrite map_map in Hjoin.
    rewrite (map_ext _ (fun note => 3 + String.length note)) in Hjoin
      by (intros note; rewrite length_append; cbn; lia).
    cbn [String.length nl] in *. cbn in Hjoin |- *. lia. }
  split; [| exact Hlen].
  split.
  - intros Hempty. rewrite Hempty in Hlen.
    destruct notes; [reflexivity | cbn in Hlen; lia].
  - intros ->. reflexivity.
Qed.

Lemma context_block_length_witness :
  String.length (contextMessage [Sample.paris; "Rome is in Italy."]) =
  8 + list_sum
        (map (fun note => 3 + String.length note)
           [Sample.paris; "Rome is in Italy."]).
Proof.
  apply (proj2 (context_block_length [Sample.paris; "Rome is in Italy."])).
Defined.

(** ** The calls and replies of note creation *)

(** X12: a note request makes no call, or the embedding call alone, or
    the embedding call followed by one write; it never searches the store
    and never calls the generation model, and a request that replies has
    made both calls. *)
Theorem notes_calls_in_order
    (rev : revision) (env : collaborators) (parsed : outcome value) :
  (trace (POST_notes rev env parsed) = [] \/
   (exists t eo,
      trace (POST_notes rev env parsed) =
      [AiRunEmbedding EMBEDDING_MODEL [t] eo]) \/
   (exists t eo values wo,
      trace (POST_notes rev env parsed) =
      [AiRunEmbedding EMBEDDING_MODEL [t] eo; NotesCreate t values wo])) /\
  (forall column v opts out,
     ~ In (NotesVectorSearch column v opts out)
         (trace (POST_notes rev env parsed))) /\
  (forall model msgs stream out,
     ~ In (AiRunChat model msgs stream out)
         (trace (POST_notes rev env parsed))) /\
  (forall body,
     result (POST_notes rev env parsed) = Return body ->
     List.length (trace (POST_notes rev env parsed)) = 2).
Proof.
  split; [| split; [| split]].
  - destruct rev; unfold_handlers; split_calls;
      first [ left; reflexivity
            | right; left; do 2 eexists; reflexivity
            | right; right; do 4 eexists; reflexivity ].
  - intros column v opts out Hin. destruct rev; run_handler; discriminate.
  - intros model msgs stream out Hin. destruct rev; run_handler; discriminate.
  - intros body Hok.
    destruct rev; run_handler; first [reflexivity | discriminate].
Qed.

Lemma notes_calls_in_order_witness :
  List.length (trace (POST_notes Rev2 Sample.healthy Sample.note_body)) = 2.
Proof.
  apply (proj2 (proj2 (proj2
           (notes_calls_in_order Rev2 Sample.healthy Sample.note_body)))
           (c_json (JObj [("inserted", Sample.stored)]))).
  reflexivity.
Defined.

(** X13: once the write has been made its outcome decides the reply: a
    rejection is rethrown, a falsy value gives the status-500 exception
    "Failed to create note", and any other value is sent back under
    [inserted], after the request's [text] in revision 1 and alone in
    revision 2. *)
Theorem write_outcome_decides_reply
    (rev : revision) (env : collaborators) (parsed : outcome value)
    (t : value) (values : vector) (out : outcome value) :
  In (NotesCreate t values out) (trace (POST_notes rev env parsed)) ->
  result (POST_notes rev env parsed) =
  match out with
  | Throw e => Throw e
  | Return inserted =>
      if truthy inserted
      then
        Return
          (c_json
             (JObj
                match rev with
                | Rev1 => [("text", t); ("inserted", inserted)]
                | Rev2 => [("inserted", inserted)]
                end))
      else Throw (HTTPException 500 "Failed to create note")
  end.
Proof.
  intros Hin.
  destruct rev; run_handler; try discriminate;
    repeat match goal with
      | H : truthy ?x = _, H' : negb (truthy ?x) = _ |- _ =>
          rewrite H in H'; cbn in H'
      end;
    first [discriminate | reflexivity].
Qed.

Lemma write_outcome_decides_reply_witness :
  result
    (POST_notes Rev1
       (Sample.fixed Sample.embedded (Sample.hits []) Sample.answered
          (Return JNull))
       Sample.note_body) =
  Throw (HTTPException 500 "Failed to create note").
Proof.
  apply (write_outcome_decides_reply Rev1
           (Sample.fixed Sample.embedded (Sample.hits []) Sample.answered
              (Return JNull))
           Sample.note_body (JStr Sample.paris) Sample.vec (Return JNull)).
  cbn. right. left. reflexivity.
Defined.

(** X14: validation looks at truthiness only: whatever truthy value the
    body holds under [text], a string or not, is what the embedding model
    is called with, before anything else. *)
Theorem truthy_text_is_embedded_as_is
    (rev : revision) (env : collaborators)
    (props : list (string * value)) (t : value) :
  lookup "text" props = Some t ->
  truthy t = true ->
  hd_error (trace (POST_notes rev env (Return (JObj props)))) =
  Some (AiRunEmbedding EMBEDDING_MODEL [t]
          (AI_run_embedding env EMBEDDING_MODEL [t])).
Proof.
  intros Hlookup Htruthy.
  destruct rev; unfold_handlers; cbn;
    rewrite Hlookup; cbn; rewrite Htruthy; cbn;
    split_calls; reflexivity.
Qed.

Lemma truthy_text_is_embedded_as_is_witness :
  hd_error
    (trace
       (POST_notes Rev1 Sample.healthy
          (Return (JObj [("title", JStr "n"); ("text", JArr [])])))) =
  Some (AiRunEmbedding EMBEDDING_MODEL [JArr []] Sample.embedded).
Proof.
  apply (truthy_text_is_embedded_as_is Rev1 Sample.healthy
           [("title", JStr "n"); ("text", JArr [])] (JArr []));
    reflexivity.
Defined.

(** X15: a body that cannot be parsed rejects the request with the
    parser's error, and a body that parses to [null] with a TypeError, in
    both cases before any call; neither gets the status-400 reply of a
    missing [text]. *)
Theorem unparsed_or_null_body
    (rev : revision) (env : collaborators) (e : exn) :
  run (POST_notes rev env (Throw e)) = (Throw e, []) /\
  exists msg,
    run (POST_notes rev env (Return JNull)) = (Throw (TypeError msg), []).
Proof.
  split; [destruct rev; reflexivity |].
  eexists. destruct rev; reflexivity.
Qed.

(** X16: the two revisions of the notes handler make the same calls on
    the same request and fail in the same cases with the same error; they
    differ only in the object of a successful reply. *)
Theorem notes_revisions_agree
    (env : collaborators) (parsed : outcome value) :
  trace (POST_notes Rev1 env parsed) = trace (POST_notes Rev2 env parsed) /\
  (forall e,
     result (POST_notes Rev1 env parsed) = Throw e <->
     result (POST_notes Rev2 env parsed) = Throw e) /\
  (forall t inserted,
     result (POST_notes Rev1 env parsed) =
       Return (c_json (JObj [("text", t); ("inserted", inserted)])) ->
     result (POST_notes Rev2 env parsed) =
       Return (c_json (JObj [("inserted", inserted)]))).
Proof.
  split; [| split].
  - unfold_handlers; split_calls; reflexivity.
  - intros e. unfold_handlers; split_calls; split; intros H;
      first [exact H | discriminate H].
  - intros t inserted. unfold_handlers; split_calls; intros H;
      first [discriminate H | injection H as _ <-; reflexivity].
Qed.

Lemma notes_revisions_agree_witness :
  result (POST_notes Rev2 Sample.healthy Sample.note_body) =
  Return (c_json (JObj [("inserted", Sample.stored)])).
Proof.
  apply (proj2 (proj2 (notes_revisions_agree Sample.healthy Sample.note_body))
           (JStr Sample.paris) Sample.stored).
  reflexivity.
Defined.
